(** * UwpSharedObjectPathTool: the SID tool of CorpusCallosum

    A shallow embedding of [src/Tools/SidTool/UwpSharedObjectPathTool.cpp].
    The program is one [main]: it prompts on [wcout], extracts a container
    name from [wcin], calls [DeriveAppContainerSidFromAppContainerName],
    [ConvertSidToStringSidA] and [FreeSid] of the host platform, and prints
    the string the conversion left in [stringSid].

    The platform calls are not code of the program.  They are taken as a
    parameter, a [Platform] record of arbitrary stateful and possibly
    crashing implementations, and every general theorem quantifies over it.
    The two locals [sid] and [stringSid] are declared without an initialiser;
    their indeterminate first contents are an input of a run as well.

    Characters are those of the basic character set: a wide character and the
    narrow character it widens from are the same [ascii]. *)

From Stdlib Require Import ZArith List String Ascii Bool.
Import ListNotations.

Local Open Scope string_scope.
Local Open Scope Z_scope.

(** ** Windows types used by the program *)

Definition PSID := Z.
Definition LPSTR := Z.
Definition HRESULT := Z.
Definition BOOL := Z.

Definition S_OK : HRESULT := 0.
(* 0x80070057 read as a signed 32-bit value *)
Definition E_INVALIDARG : HRESULT := -2147024809.
Definition SUCCEEDED (hr : HRESULT) : bool := 0 <=? hr.
Definition FAILED (hr : HRESULT) : bool := hr <? 0.

(** ** Characters and the string literals of [main] *)

Definition nl : string := String (ascii_of_nat 10) EmptyString.

Definition prompt : string :=
  "You can find SID for your UWP app in the Partner Center. If it is not yet published or you are going to use MSIX for deployment from website, FTP or shared folder, please enter your app container name. For UWP apps it is the same string as PFN (Package Family Name):"
  ++ nl ++ nl.

Definition label : string := "SID: ".

(** ** [wcin >> containerName]

    Formatted extraction into a [wstring]: the sentry skips leading white
    space ([skipws] is set by default), then characters are taken up to the
    next white-space character or the end of the input.  The delimiter stays
    in the stream.  When nothing is left, nothing is stored and the string
    keeps its value, which is the empty string of its default constructor. *)

Definition iswspace (c : ascii) : bool :=
  let n := nat_of_ascii c in
  (Nat.eqb n 32 || (Nat.leb 9 n && Nat.leb n 13))%bool.

Fixpoint skip_ws (s : string) : string :=
  match s with
  | EmptyString => EmptyString
  | String c r => if iswspace c then skip_ws r else s
  end.

Fixpoint take_word (s : string) : string * string :=
  match s with
  | EmptyString => (EmptyString, EmptyString)
  | String c r =>
      if iswspace c then (EmptyString, s)
      else let (t, rest) := take_word r in (String c t, rest)
  end.

Definition extract (input : string) : string * string :=
  take_word (skip_ws input).

(** [containerName.c_str()] as the callee reads it: the characters before
    the first null character. *)
Definition is_nul (c : ascii) : bool := Nat.eqb (nat_of_ascii c) 0.

Fixpoint c_str (s : string) : string :=
  match s with
  | EmptyString => EmptyString
  | String c r => if is_nul c then EmptyString else String c (c_str r)
  end.

(** ** Observable events of a run, in program order *)

Inductive event : Type :=
| EvPut (s : string)             (* wcout << s *)
| EvGet (name : string)          (* wcin >> containerName, with what it stored *)
| EvDerive (name : string)       (* DeriveAppContainerSidFromAppContainerName *)
| EvConvert (sid : PSID)         (* ConvertSidToStringSidA *)
| EvFreeSid (sid : PSID)         (* FreeSid *)
| EvLocalFree (p : LPSTR).       (* LocalFree, the release of a converted string *)

(** ** Outcome of a call: it returns, or the process dies inside it *)

Inductive outcome (A : Type) : Type :=
| Returned (a : A)
| Crashed.
Arguments Returned {A} a.
Arguments Crashed {A}.

(** ** The host platform

    [St] is whatever the platform keeps (its heap, its tables).  An out
    parameter is [Some v] when the call stored [v] through the pointer and
    [None] when it left the variable alone.  [cstring_at] is what
    [wcout << p] finds at the address [p] of a narrow string.  [LocalFree] is
    the release sddl.h names for the string of [ConvertSidToStringSidA]. *)

Record Platform (St : Type) : Type := mkPlatform {
  DeriveAppContainerSidFromAppContainerName :
    string -> St -> outcome (HRESULT * option PSID * St);
  ConvertSidToStringSidA :
    PSID -> St -> outcome (BOOL * option LPSTR * St);
  FreeSid : PSID -> St -> outcome St;
  LocalFree : LPSTR -> St -> outcome St;
  cstring_at : LPSTR -> St -> outcome string
}.
Arguments DeriveAppContainerSidFromAppContainerName {St} _ _ _.
Arguments ConvertSidToStringSidA {St} _ _ _.
Arguments FreeSid {St} _ _ _.
Arguments LocalFree {St} _ _ _.
Arguments cstring_at {St} _ _ _.

(** ** The world a run acts on *)

Record world (St : Type) : Type := mkWorld {
  w_stdin : string;
  w_stdout : string;
  w_host : St;
  w_trace : list event
}.
Arguments mkWorld {St} _ _ _ _.
Arguments w_stdin {St} _.
Arguments w_stdout {St} _.
Arguments w_host {St} _.
Arguments w_trace {St} _.

(** ** A state monad with crashes; the world survives a crash *)

Definition M (St A : Type) : Type := world St -> outcome A * world St.

Definition ret {St A} (a : A) : M St A := fun w => (Returned a, w).

Definition bind {St A B} (m : M St A) (k : A -> M St B) : M St B :=
  fun w =>
    match m w with
    | (Returned a, w') => k a w'
    | (Crashed, w') => (Crashed, w')
    end.

Declare Scope prog_scope.
Delimit Scope prog_scope with prog.
Notation "x <- m ;; k" := (bind m (fun x => k))
  (at level 100, m at next level, right associativity) : prog_scope.
Notation "m ;; k" := (bind m (fun _ => k))
  (at level 100, right associativity) : prog_scope.

Definition log {St} (e : event) (w : world St) : world St :=
  mkWorld (w_stdin w) (w_stdout w) (w_host w) (w_trace w ++ [e]).

Definition set_host {St} (h : St) (w : world St) : world St :=
  mkWorld (w_stdin w) (w_stdout w) h (w_trace w).

(** The value a variable holds after a call that had its address. *)
Definition stored {A} (out : option A) (old : A) : A :=
  match out with
  | Some v => v
  | None => old
  end.

(** The indeterminate contents of the locals declared without initialiser. *)
Record locals : Type := mkLocals {
  sid_0 : PSID;
  stringSid_0 : LPSTR
}.

(** ** The statements of [main] *)

Section Statements.
Context {St : Type} (P : Platform St).

(* wcout << L"...": [w_stdout] is what has been put into the stream; when it
   leaves the stream's buffer is not modelled *)
Definition wcout_put (s : string) : M St unit :=
  fun w =>
    (Returned tt,
     mkWorld (w_stdin w) (w_stdout w ++ s) (w_host w) (w_trace w ++ [EvPut s])).

(* wcin >> containerName *)
Definition wcin_get : M St string :=
  fun w =>
    let (name, rest) := extract (w_stdin w) in
    (Returned name,
     mkWorld rest (w_stdout w) (w_host w) (w_trace w ++ [EvGet name])).

(* DeriveAppContainerSidFromAppContainerName(name, &sid); the HRESULT is dropped *)
Definition call_Derive (name : string) (sid : PSID) : M St PSID :=
  fun w =>
    let w1 := log (EvDerive name) w in
    match DeriveAppContainerSidFromAppContainerName P name (w_host w) with
    | Returned (_, out, h) => (Returned (stored out sid), set_host h w1)
    | Crashed => (Crashed, w1)
    end.

(* ConvertSidToStringSidA(sid, &stringSid); the BOOL is dropped *)
Definition call_Convert (sid : PSID) (stringSid : LPSTR) : M St LPSTR :=
  fun w =>
    let w1 := log (EvConvert sid) w in
    match ConvertSidToStringSidA P sid (w_host w) with
    | Returned (_, out, h) => (Returned (stored out stringSid), set_host h w1)
    | Crashed => (Crashed, w1)
    end.

(* FreeSid(sid); the returned pointer is dropped *)
Definition call_FreeSid (sid : PSID) : M St unit :=
  fun w =>
    let w1 := log (EvFreeSid sid) w in
    match FreeSid P sid (w_host w) with
    | Returned h => (Returned tt, set_host h w1)
    | Crashed => (Crashed, w1)
    end.

(* LocalFree(p); no statement of main is this one *)
Definition call_LocalFree (p : LPSTR) : M St unit :=
  fun w =>
    let w1 := log (EvLocalFree p) w in
    match LocalFree P p (w_host w) with
    | Returned h => (Returned tt, set_host h w1)
    | Crashed => (Crashed, w1)
    end.

(* wcout << stringSid, a narrow string widened character by character.
   The read of the string either gives its characters or ends the process;
   a library that refuses the pointer and sets the stream's error state
   instead is not modelled *)
Definition wcout_put_narrow (p : LPSTR) : M St unit :=
  fun w =>
    match cstring_at P p (w_host w) with
    | Returned s => wcout_put s w
    | Crashed => (Crashed, w)
    end.

Definition main (indeterminate : locals) : M St Z :=
  (let sid := sid_0 indeterminate in
   let stringSid := stringSid_0 indeterminate in
   wcout_put prompt ;;
   containerName <- wcin_get ;;
   sid <- call_Derive (c_str containerName) sid ;;
   stringSid <- call_Convert sid stringSid ;;
   call_FreeSid sid ;;
   wcout_put label ;;
   wcout_put_narrow stringSid ;;
   wcout_put nl ;;
   ret 0)%prog.

End Statements.

(** ** Readings of a run used in the statements *)

Definition is_prefix_of {A} (l full : list A) : Prop :=
  exists tail, full = (l ++ tail)%list.

(** The events of a run that reaches the end of [main]. *)
Definition script (name : string) (sid : PSID) (text : string) : list event :=
  [EvPut prompt; EvGet name; EvDerive (c_str name); EvConvert sid;
   EvFreeSid sid; EvPut label; EvPut text; EvPut nl].




Definition is_release (e : event) : bool :=
  match e with
  | EvFreeSid _ | EvLocalFree _ => true
  | _ => false
  end.


Definition is_put (e : event) : bool :=
  match e with
  | EvPut _ => true
  | _ => false
  end.

Definition releases (evs : list event) : list event := filter is_release evs.

(** The identifiers handed to [FreeSid], in order. *)
Definition freed_sids (evs : list event) : list PSID :=
  flat_map (fun e => match e with EvFreeSid s => [s] | _ => [] end) evs.

Definition is_newline (c : ascii) : bool := Nat.eqb (nat_of_ascii c) 10.

Fixpoint count_lines (s : string) : nat :=
  match s with
  | EmptyString => O
  | String c r => if is_newline c then S (count_lines r) else count_lines r
  end.

Fixpoint ends_with_newline (s : string) : bool :=
  match s with
  | EmptyString => false
  | String c EmptyString => is_newline c
  | String _ r => ends_with_newline r
  end.

(** One line: a single line terminator, and it is the last character. *)
Definition is_one_line (s : string) : bool :=
  (Nat.eqb (count_lines s) 1 && ends_with_newline s)%bool.

(** The lines of a text, each without its terminator. *)
Fixpoint lines_of (s : string) : list string :=
  match s with
  | EmptyString => []
  | String c r =>
      if is_newline c then EmptyString :: lines_of r
      else match lines_of r with
           | [] => [String c EmptyString]
           | l :: ls => String c l :: ls
           end
  end.

Fixpoint all_chars (f : ascii -> bool) (s : string) : bool :=
  match s with
  | EmptyString => true
  | String c r => (f c && all_chars f r)%bool
  end.

Definition no_newline (s : string) : bool :=
  all_chars (fun c => negb (is_newline c)) s.

(** The prefix every textual security identifier of revision 1 starts with. *)
Definition sid_prefix : string := "S-1-".

(** The canonical textual form as far as the program depends on it: the
    text starts with the prefix and holds no line terminator. *)
Definition canonical_text (text : string) : bool :=
  (prefix sid_prefix text && no_newline text)%bool.

(** The two ways a platform call reports failure to a caller that looks. *)
Definition derivation_failed (hr : HRESULT) : Prop := FAILED hr = true.
Definition conversion_failed (b : BOOL) : Prop := b = 0.

(** What the specification asks of a run on a failure: a non-zero exit status. *)
Definition reports_failure (r : outcome Z) : Prop :=
  exists code, r = Returned code /\ code <> 0.

(** The platform takes [name]: derivation stores an identifier and reports
    success, conversion of it stores a string and reports success, the
    release returns, and [text] is the string found at the stored address. *)
Definition accepts {St} (P : Platform St) (name : string) (h : St)
    (sid : PSID) (text : string) (h' : St) : Prop :=
  exists hr h1 b q h2,
    DeriveAppContainerSidFromAppContainerName P name h = Returned (hr, Some sid, h1)
    /\ SUCCEEDED hr = true
    /\ ConvertSidToStringSidA P sid h1 = Returned (b, Some q, h2)
    /\ b <> 0
    /\ FreeSid P sid h2 = Returned h'
    /\ cstring_at P q h' = Returned text.

(** The text the platform gives for a name does not depend on what state
    the platform is in when asked. *)
Definition deterministic {St} (P : Platform St) : Prop :=
  forall name h1 h2 s1 s2 t1 t2 h1' h2',
    accepts P name h1 s1 t1 h1' -> accepts P name h2 s2 t2 h2' -> t1 = t2.

(** [std::getline]: the characters before the first line terminator. *)
Fixpoint getline (s : string) : string :=
  match s with
  | EmptyString => EmptyString
  | String c r => if is_newline c then EmptyString else String c (getline r)
  end.

(** The same platform with the two status values rewritten. *)
Definition with_status {St} (f : HRESULT -> HRESULT) (k : BOOL -> BOOL)
    (P : Platform St) : Platform St :=
  mkPlatform St
    (fun name h =>
       match DeriveAppContainerSidFromAppContainerName P name h with
       | Returned (hr, out, h') => Returned (f hr, out, h')
       | Crashed => Crashed
       end)
    (fun sid h =>
       match ConvertSidToStringSidA P sid h with
       | Returned (b, out, h') => Returned (k b, out, h')
       | Crashed => Crashed
       end)
    (FreeSid P) (LocalFree P) (cstring_at P).

(** The same platform with another [LocalFree]. *)
Definition with_LocalFree {St} (f : LPSTR -> St -> outcome St)
    (P : Platform St) : Platform St :=
  mkPlatform St
    (DeriveAppContainerSidFromAppContainerName P)
    (ConvertSidToStringSidA P)
    (FreeSid P) f (cstring_at P).

(** Every run is one of five: the process dies inside one of the three
    platform calls or while the string is read, or [main] returns. *)
Inductive run_shape (name : string) : outcome Z -> list event -> Prop :=
| dies_in_derive :
    run_shape name Crashed [EvPut prompt; EvGet name; EvDerive (c_str name)]
| dies_in_convert sid :
    run_shape name Crashed
      [EvPut prompt; EvGet name; EvDerive (c_str name); EvConvert sid]
| dies_in_release sid :
    run_shape name Crashed
      [EvPut prompt; EvGet name; EvDerive (c_str name); EvConvert sid;
       EvFreeSid sid]
| dies_in_print sid :
    run_shape name Crashed
      [EvPut prompt; EvGet name; EvDerive (c_str name); EvConvert sid;
       EvFreeSid sid; EvPut label]
| returns sid text :
    run_shape name (Returned 0) (script name sid text).

(** ** A stub platform

    A stand-in for the host identity subsystem with a fixed table of names
    and a heap that records what is allocated, for running [main] on
    concrete inputs.  An identifier block holds the text of its identifier.
    A failing call stores nothing.  [FreeSid] of the null pointer does
    nothing; a release of an address that is not allocated, and a read of a
    string at such an address, end the process. *)

Definition contoso : string := "Contoso.DemoApp_8wekyb3d8bbwe".

Definition contoso_sid : string :=
  "S-1-15-2-2608634532-1453884237-1118350049-1925931850-670756941-1603938316-3764965493".

Module Stub.

Record heap : Type := mkHeap {
  sid_blocks : list (PSID * string);
  str_blocks : list (LPSTR * string);
  brk : Z
}.

Definition known : list (string * string) := [(contoso, contoso_sid)].

Fixpoint sid_of_name (name : string) (table : list (string * string))
    : option string :=
  match table with
  | [] => None
  | (n, s) :: rest => if String.eqb name n then Some s else sid_of_name name rest
  end.

Fixpoint find_block {A} (p : Z) (l : list (Z * A)) : option A :=
  match l with
  | [] => None
  | (q, v) :: rest => if p =? q then Some v else find_block p rest
  end.

Fixpoint drop_block {A} (p : Z) (l : list (Z * A)) : list (Z * A) :=
  match l with
  | [] => []
  | (q, v) :: rest => if p =? q then rest else (q, v) :: drop_block p rest
  end.

Definition derive (name : string) (h : heap)
    : outcome (HRESULT * option PSID * heap) :=
  match sid_of_name name known with
  | Some s =>
      let p := brk h in
      Returned (S_OK, Some p,
                mkHeap ((p, s) :: sid_blocks h) (str_blocks h) (p + 8))
  | None => Returned (E_INVALIDARG, None, h)
  end.

Definition convert (sid : PSID) (h : heap)
    : outcome (BOOL * option LPSTR * heap) :=
  match find_block sid (sid_blocks h) with
  | Some s =>
      let q := brk h in
      Returned (1, Some q,
                mkHeap (sid_blocks h) ((q, s) :: str_blocks h) (q + 8))
  | None => Returned (0, None, h)
  end.

Definition free_sid (sid : PSID) (h : heap) : outcome heap :=
  if sid =? 0 then Returned h
  else match find_block sid (sid_blocks h) with
       | Some _ =>
           Returned (mkHeap (drop_block sid (sid_blocks h)) (str_blocks h) (brk h))
       | None => Crashed
       end.

Definition local_free (p : LPSTR) (h : heap) : outcome heap :=
  if p =? 0 then Returned h
  else match find_block p (str_blocks h) with
       | Some _ =>
           Returned (mkHeap (sid_blocks h) (drop_block p (str_blocks h)) (brk h))
       | None => Crashed
       end.

Definition read_string (p : LPSTR) (h : heap) : outcome string :=
  match find_block p (str_blocks h) with
  | Some s => Returned s
  | None => Crashed
  end.

Definition platform : Platform heap :=
  mkPlatform heap derive convert free_sid local_free read_string.

(** The stub out of memory for strings: every conversion fails, stores
    nothing and returns FALSE. *)
Definition exhausted : Platform heap :=
  mkPlatform heap derive (fun _ h => Returned (0, None, h))
    free_sid local_free read_string.

(** The stub with a conversion that ends the process. *)
Definition faulty : Platform heap :=
  mkPlatform heap derive (fun _ _ => Crashed)
    free_sid local_free read_string.

(** The stub with a conversion whose text is no security identifier. *)
Definition unprefixed : Platform heap :=
  mkPlatform heap derive
    (fun sid h =>
       match find_block sid (sid_blocks h) with
       | Some _ =>
           let q := brk h in
           Returned (1, Some q,
                     mkHeap (sid_blocks h) ((q, "not-a-sid") :: str_blocks h)
                       (q + 8))
       | None => Returned (0, None, h)
       end)
    free_sid local_free read_string.

(** The stub with a conversion that depends on what the heap has been
    through: once the break has moved past its first block, the text it
    gives carries a further part. *)
Definition drifting : Platform heap :=
  mkPlatform heap derive
    (fun sid h =>
       match find_block sid (sid_blocks h) with
       | Some s =>
           let q := brk h in
           let t := if q <=? 65544 then s else (s ++ "-0")%string in
           Returned (1, Some q,
                     mkHeap (sid_blocks h) ((q, t) :: str_blocks h) (q + 8))
       | None => Returned (0, None, h)
       end)
    free_sid local_free read_string.

(** A process image at start-up: nothing of the platform allocated yet,
    two strings of earlier use still readable at 4096 and 4104. *)
Definition boot : heap :=
  mkHeap [] [(4096, "stale"); (4104, "bytes")] 65536.

Definition start (input : string) : world heap :=
  mkWorld input "" boot [].

(** Indeterminate locals: a null [sid], [stringSid] pointing at old text. *)
Definition junk (p : LPSTR) : locals := mkLocals 0 p.

(** The heap while the identifier of [contoso] is held, before and after
    its conversion, and after its release. *)
Definition holding_sid : heap :=
  mkHeap [(65536, contoso_sid)] [(4096, "stale"); (4104, "bytes")] 65544.

Definition holding_both : heap :=
  mkHeap [(65536, contoso_sid)]
    [(65544, contoso_sid); (4096, "stale"); (4104, "bytes")] 65552.

Definition after_contoso : heap :=
  mkHeap [] [(65544, contoso_sid); (4096, "stale"); (4104, "bytes")] 65552.

(** The world a first run on [contoso] leaves, with more input typed. *)
Definition second_start : world heap :=
  mkWorld ("  " ++ contoso ++ " again") "earlier output" after_contoso [].

End Stub.

(** ** Proof steps shared below *)

Ltac run_main :=
  unfold main, bind, ret, wcout_put_narrow, wcout_put, wcin_get,
    call_Derive, call_Convert, call_FreeSid, log, set_host;
  cbn [w_stdin w_stdout w_host w_trace fst snd].

Ltac flatten_trace :=
  repeat rewrite <- app_assoc; cbn [app].

Ltac by_running := vm_compute; repeat split; try reflexivity; try discriminate.

Ltac stub_accepts hr h1 b q h2 :=
  exists hr, h1, b, q, h2; repeat split; try reflexivity; try discriminate.

#[local] Hint Constructors run_shape : core.

(** * Properties *)

(** ** Strings *)

Lemma append_assoc (a b c : string) :
  ((a ++ b) ++ c)%string = (a ++ (b ++ c))%string.
Proof.
  induction a as [|x a IH]; simpl; [reflexivity | now rewrite IH].
Qed.

Lemma count_lines_append (a b : string) :
  count_lines (a ++ b) = (count_lines a + count_lines b)%nat.
Proof.
  induction a as [|x a IH]; simpl; [reflexivity|].
  destruct (is_newline x); simpl; now rewrite IH.
Qed.

Lemma count_lines_no_newline (s : string) :
  no_newline s = true -> count_lines s = O.
Proof.
  unfold no_newline.
  induction s as [|x s IH]; simpl; [reflexivity|].
  destruct (is_newline x); simpl; [discriminate | exact IH].
Qed.

Lemma ends_with_newline_append (a : string) :
  ends_with_newline (a ++ nl) = true.
Proof.
  induction a as [|x a IH]; [reflexivity|].
  change (String x a ++ nl)%string with (String x (a ++ nl)).
  simpl. destruct (a ++ nl)%string eqn:E; [|exact IH].
  destruct a; discriminate.
Qed.

Lemma prefix_append (p s r : string) :
  prefix p s = true -> prefix p (s ++ r) = true.
Proof.
  revert s. induction p as [|x p IH]; intros s H.
  - destruct s; simpl; [destruct r|]; reflexivity.
  - destruct s as [|y s]; simpl in *; [discriminate|].
    destruct (ascii_dec x y); [now apply IH | discriminate].
Qed.

Lemma prefix_after (a p s : string) :
  prefix p s = true -> prefix (a ++ p) (a ++ s) = true.
Proof.
  intros H. induction a as [|x a IH]; simpl; [exact H|].
  destruct (ascii_dec x x); [exact IH | congruence].
Qed.

(** The line [label ++ text ++ nl] is one line when [text] holds no terminator. *)
Lemma result_is_one_line (text : string) :
  no_newline text = true -> is_one_line (label ++ text ++ nl) = true.
Proof.
  intros H. unfold is_one_line.
  rewrite <- append_assoc, ends_with_newline_append, andb_true_r.
  rewrite !count_lines_append, (count_lines_no_newline text H).
  reflexivity.
Qed.

Lemma lines_of_first (a r : string) :
  no_newline a = true -> lines_of (a ++ nl ++ r) = a :: lines_of r.
Proof.
  unfold no_newline. induction a as [|x a IH]; intros H.
  - reflexivity.
  - cbn [all_chars] in H. apply andb_prop in H as [Hx Ha].
    change (String x a ++ nl ++ r)%string with (String x (a ++ nl ++ r)).
    cbn [lines_of]. rewrite (IH Ha).
    now destruct (is_newline x).
Qed.

Lemma lines_of_nl (r : string) :
  lines_of (nl ++ r) = EmptyString :: lines_of r.
Proof. reflexivity. Qed.

Lemma prefix_self (p s : string) : prefix p (p ++ s) = true.
Proof.
  induction p as [|x p IH]; simpl; [now destruct s|].
  destruct (ascii_dec x x); [exact IH | congruence].
Qed.

(** Of the lines the program writes, the prompt and the result, one starts
    with the label: the result. *)
Lemma one_labelled_line (text : string) :
  no_newline text = true ->
  filter (prefix label) (lines_of (prompt ++ label ++ text ++ nl))
  = [(label ++ text)%string].
Proof.
  intros H. unfold prompt.
  rewrite !append_assoc, lines_of_first by reflexivity.
  rewrite lines_of_nl.
  rewrite <- (append_assoc label text nl).
  replace ((label ++ text) ++ nl)%string
    with ((label ++ text) ++ nl ++ EmptyString)%string by reflexivity.
  rewrite lines_of_first.
  - cbn [lines_of filter]. rewrite prefix_self. reflexivity.
  - unfold no_newline in *. exact H.
Qed.

Lemma append_same_head (a x y : string) :
  (a ++ x)%string = (a ++ y)%string -> x = y.
Proof.
  induction a as [|c a IH]; simpl; intros H; [exact H|].
  injection H as H. now apply IH.
Qed.

Lemma append_same_nl (x y : string) :
  (x ++ nl)%string = (y ++ nl)%string -> x = y.
Proof.
  revert y. induction x as [|c x IH]; intros [|d y] H; simpl in H.
  - reflexivity.
  - injection H as _ H. destruct y; discriminate.
  - injection H as _ H. destruct x; discriminate.
  - injection H as -> H. now rewrite (IH y H).
Qed.

(** A prefix without line terminator is found in [t ++ nl] when and only
    when it is found in [t]. *)
Lemma prefix_before_nl (p t : string) :
  no_newline p = true -> prefix p (t ++ nl) = prefix p t.
Proof.
  unfold no_newline. revert t.
  induction p as [|x p IH]; intros t Hp.
  - destruct t; reflexivity.
  - cbn [all_chars] in Hp. apply andb_prop in Hp as [Hx Hp].
    destruct t as [|y t].
    + simpl. destruct (ascii_dec x (ascii_of_nat 10)) as [->|]; [|reflexivity].
      discriminate.
    + simpl. destruct (ascii_dec x y); [now apply IH | reflexivity].
Qed.

Lemma prefix_behind (a p s : string) :
  prefix (a ++ p) (a ++ s) = prefix p s.
Proof.
  induction a as [|x a IH]; simpl; [reflexivity|].
  destruct (ascii_dec x x); [exact IH | congruence].
Qed.

Lemma c_str_no_nul (s : string) :
  all_chars (fun c => negb (is_nul c)) s = true -> c_str s = s.
Proof.
  induction s as [|c r IH]; simpl; [reflexivity|].
  destruct (is_nul c); simpl; [discriminate|].
  intros H. now rewrite IH.
Qed.

(** ** The extraction of the name *)

Lemma take_word_no_space (s : string) :
  all_chars (fun c => negb (iswspace c)) (fst (take_word s)) = true.
Proof.
  induction s as [|c r IH]; simpl; [reflexivity|].
  destruct (iswspace c) eqn:E; simpl; [reflexivity|].
  destruct (take_word r) as [t rest]; simpl in *.
  now rewrite E, IH.
Qed.

Lemma take_word_split (s : string) :
  s = (fst (take_word s) ++ snd (take_word s))%string.
Proof.
  induction s as [|c r IH]; simpl; [reflexivity|].
  destruct (iswspace c); simpl; [reflexivity|].
  destruct (take_word r) as [t rest]; simpl in *. now rewrite <- IH.
Qed.

Lemma take_word_rest (s : string) :
  snd (take_word s) = EmptyString
  \/ exists c r, snd (take_word s) = String c r /\ iswspace c = true.
Proof.
  induction s as [|c r IH]; simpl; [now left|].
  destruct (iswspace c) eqn:E; simpl; [right; eauto|].
  destruct (take_word r) as [t rest]; simpl in *. exact IH.
Qed.

Lemma skip_ws_split (s : string) :
  exists ws, s = (ws ++ skip_ws s)%string /\ all_chars iswspace ws = true.
Proof.
  induction s as [|c r [ws [E H]]]; simpl.
  - exists EmptyString. split; reflexivity.
  - destruct (iswspace c) eqn:W.
    + exists (String c ws). simpl. rewrite W, H.
      split; [now rewrite <- E | reflexivity].
    + exists EmptyString. split; reflexivity.
Qed.

(** Nothing but white space in the input: the name is empty. *)
Lemma extract_blank (s : string) :
  all_chars iswspace s = true -> extract s = (EmptyString, EmptyString).
Proof.
  unfold extract. induction s as [|c r IH]; simpl; [reflexivity|].
  destruct (iswspace c); simpl; [exact IH | discriminate].
Qed.

(** The name is empty only when the input holds nothing but white space. *)
Lemma extract_empty_name (s : string) :
  fst (extract s) = EmptyString -> all_chars iswspace s = true.
Proof.
  unfold extract. induction s as [|c r IH]; simpl; [reflexivity|].
  destruct (iswspace c) eqn:W; simpl; [exact IH|].
  rewrite W. destruct (take_word r); discriminate.
Qed.

(** ** The runs of [main] *)

Section Runs.
Context {St : Type} (P : Platform St).

(** The run in which every call returns, whatever it reports. *)
Lemma main_returns (g : locals) (w : world St)
    name rest hr o1 h1 b o2 h2 h3 text :
  extract (w_stdin w) = (name, rest) ->
  DeriveAppContainerSidFromAppContainerName P (c_str name) (w_host w)
    = Returned (hr, o1, h1) ->
  ConvertSidToStringSidA P (stored o1 (sid_0 g)) h1 = Returned (b, o2, h2) ->
  FreeSid P (stored o1 (sid_0 g)) h2 = Returned h3 ->
  cstring_at P (stored o2 (stringSid_0 g)) h3 = Returned text ->
  main P g w =
    (Returned 0,
     mkWorld rest (w_stdout w ++ prompt ++ label ++ text ++ nl) h3
       (w_trace w ++ script name (stored o1 (sid_0 g)) text)).
Proof.
  intros Hx Hd Hc Hf Hs. run_main.
  rewrite Hx. cbn [w_stdin w_stdout w_host w_trace].
  rewrite Hd. cbn [w_stdin w_stdout w_host w_trace].
  rewrite Hc. cbn [w_stdin w_stdout w_host w_trace].
  rewrite Hf. cbn [w_stdin w_stdout w_host w_trace].
  rewrite Hs. cbn [w_stdin w_stdout w_host w_trace].
  unfold script. flatten_trace. rewrite !append_assoc. reflexivity.
Qed.

(** The events of any run, and the name the run handed to the platform. *)
Lemma main_shape (g : locals) (w : world St) :
  exists evs,
    w_trace (snd (main P g w)) = (w_trace w ++ evs)%list
    /\ run_shape (fst (extract (w_stdin w))) (fst (main P g w)) evs.
Proof.
  run_main.
  destruct (extract (w_stdin w)) as [name rest].
  cbn [w_stdin w_stdout w_host w_trace fst snd].
  destruct (DeriveAppContainerSidFromAppContainerName P (c_str name) (w_host w))
    as [[[hr o1] h1]|];
    cbn [w_stdin w_stdout w_host w_trace fst snd];
    [|eexists; split; [flatten_trace; reflexivity | auto]].
  destruct (ConvertSidToStringSidA P (stored o1 (sid_0 g)) h1)
    as [[[b o2] h2]|];
    cbn [w_stdin w_stdout w_host w_trace fst snd];
    [|eexists; split; [flatten_trace; reflexivity | auto]].
  destruct (FreeSid P (stored o1 (sid_0 g)) h2) as [h3|];
    cbn [w_stdin w_stdout w_host w_trace fst snd];
    [|eexists; split; [flatten_trace; reflexivity | auto]].
  destruct (cstring_at P (stored o2 (stringSid_0 g)) h3) as [text|];
    cbn [w_stdin w_stdout w_host w_trace fst snd];
    eexists; (split; [flatten_trace; reflexivity | ]); [apply returns | auto].
Qed.

(** The input left in [wcin] is what follows the name, in every run. *)
Lemma main_stdin (g : locals) (w : world St) :
  w_stdin (snd (main P g w)) = snd (extract (w_stdin w)).
Proof.
  run_main.
  destruct (extract (w_stdin w)) as [name rest].
  cbn [w_stdin w_stdout w_host w_trace fst snd].
  destruct (DeriveAppContainerSidFromAppContainerName P (c_str name) (w_host w))
    as [[[hr o1] h1]|]; cbn [w_stdin w_stdout w_host w_trace fst snd];
    [|reflexivity].
  destruct (ConvertSidToStringSidA P (stored o1 (sid_0 g)) h1)
    as [[[b o2] h2]|]; cbn [w_stdin w_stdout w_host w_trace fst snd];
    [|reflexivity].
  destruct (FreeSid P (stored o1 (sid_0 g)) h2) as [h3|];
    cbn [w_stdin w_stdout w_host w_trace fst snd]; [|reflexivity].
  destruct (cstring_at P (stored o2 (stringSid_0 g)) h3) as [text|];
    reflexivity.
Qed.

(** Once the release has returned, the platform is in the state the
    release left, whether or not the string can then be read. *)
Lemma main_after_release (g : locals) (w : world St)
    name rest hr o1 h1 b o2 h2 h3 :
  extract (w_stdin w) = (name, rest) ->
  DeriveAppContainerSidFromAppContainerName P (c_str name) (w_host w)
    = Returned (hr, o1, h1) ->
  ConvertSidToStringSidA P (stored o1 (sid_0 g)) h1 = Returned (b, o2, h2) ->
  FreeSid P (stored o1 (sid_0 g)) h2 = Returned h3 ->
  w_host (snd (main P g w)) = h3
  /\ exists outs,
       w_trace (snd (main P g w)) =
         (w_trace w ++
           [EvPut prompt; EvGet name; EvDerive (c_str name);
            EvConvert (stored o1 (sid_0 g)); EvFreeSid (stored o1 (sid_0 g))]
           ++ outs)%list
       /\ forallb is_put outs = true.
Proof.
  intros Hx Hd Hc Hf.
  destruct (cstring_at P (stored o2 (stringSid_0 g)) h3) as [text|] eqn:Hs.
  - rewrite (main_returns g w _ _ _ _ _ _ _ _ _ _ Hx Hd Hc Hf Hs).
    cbn [snd w_host w_trace]. split; [reflexivity|].
    exists [EvPut label; EvPut text; EvPut nl]. split; reflexivity.
  - run_main.
    rewrite Hx. cbn [w_stdin w_stdout w_host w_trace].
    rewrite Hd. cbn [w_stdin w_stdout w_host w_trace].
    rewrite Hc. cbn [w_stdin w_stdout w_host w_trace].
    rewrite Hf. cbn [w_stdin w_stdout w_host w_trace].
    rewrite Hs. cbn [snd w_host w_trace]. split; [reflexivity|].
    exists [EvPut label]. split; [flatten_trace|]; reflexivity.
Qed.

(** [main] asks nothing of the platform's [LocalFree]. *)
Lemma main_ignores_LocalFree (f : LPSTR -> St -> outcome St)
    (g : locals) (w : world St) :
  main (with_LocalFree f P) g w = main P g w.
Proof. reflexivity. Qed.

(** [main] does not look at the two status values. *)
Lemma main_ignores_status (f : HRESULT -> HRESULT) (k : BOOL -> BOOL)
    (g : locals) (w : world St) :
  main (with_status f k P) g w = main P g w.
Proof.
  run_main. unfold with_status.
  cbn [DeriveAppContainerSidFromAppContainerName ConvertSidToStringSidA
       FreeSid cstring_at].
  destruct (extract (w_stdin w)) as [name rest].
  cbn [w_stdin w_stdout w_host w_trace].
  destruct (DeriveAppContainerSidFromAppContainerName P (c_str name) (w_host w))
    as [[[hr o1] h1]|]; [|reflexivity].
  cbn [w_stdin w_stdout w_host w_trace].
  destruct (ConvertSidToStringSidA P (stored o1 (sid_0 g)) h1)
    as [[[b o2] h2]|]; reflexivity.
Qed.

End Runs.


Lemma run_shape_script name r evs :
  run_shape name r evs ->
  exists sid text, is_prefix_of evs (script name sid text)
                   /\ (r <> Crashed -> evs = script name sid text).
Proof.
  intros H; destruct H; unfold script.
  - exists 0, EmptyString. split; [|congruence].
    now exists [EvConvert 0; EvFreeSid 0; EvPut label; EvPut EmptyString; EvPut nl].
  - exists sid, EmptyString. split; [|congruence].
    now exists [EvFreeSid sid; EvPut label; EvPut EmptyString; EvPut nl].
  - exists sid, EmptyString. split; [|congruence].
    now exists [EvPut label; EvPut EmptyString; EvPut nl].
  - exists sid, EmptyString. split; [|congruence].
    now exists [EvPut EmptyString; EvPut nl].
  - exists sid, text. split; [now exists [] | reflexivity].
Qed.


Lemma run_shape_status name r evs :
  run_shape name r evs -> forall code, r = Returned code -> code = 0.
Proof.
  intros H; destruct H; intros code E; congruence.
Qed.

Lemma puts_release_nothing (outs : list event) :
  forallb is_put outs = true -> releases outs = [] /\ freed_sids outs = [].
Proof.
  unfold releases, freed_sids.
  induction outs as [|e outs IH]; [now split|].
  cbn [forallb]. intros H. apply andb_prop in H as [He H].
  destruct e; try discriminate. cbn [filter is_release flat_map app].
  now apply IH.
Qed.

(** ** The stub platform answers by its table alone *)

Lemma stub_find_head {A} (p : Z) (v : A) (l : list (Z * A)) :
  Stub.find_block p ((p, v) :: l) = Some v.
Proof. simpl. now rewrite Z.eqb_refl. Qed.

Lemma stub_accepts_known name h sid text h' :
  accepts Stub.platform name h sid text h' ->
  Stub.sid_of_name name Stub.known = Some text.
Proof.
  intros (hr & h1 & b & q & h2 & Hd & _ & Hc & _ & Hf & Ht).
  cbn [Stub.platform DeriveAppContainerSidFromAppContainerName
       ConvertSidToStringSidA FreeSid cstring_at] in *.
  unfold Stub.derive in Hd.
  destruct (Stub.sid_of_name name Stub.known) as [s|]; [|discriminate].
  injection Hd as _ Hsid Hh1. subst sid h1.
  unfold Stub.convert in Hc. cbn [Stub.sid_blocks Stub.str_blocks Stub.brk] in Hc.
  rewrite stub_find_head in Hc.
  injection Hc as _ Hq Hh2. subst q h2.
  assert (Hstr : Stub.str_blocks h' = (Stub.brk h + 8, s) :: Stub.str_blocks h).
  { unfold Stub.free_sid in Hf.
    cbn [Stub.sid_blocks Stub.str_blocks Stub.brk] in Hf.
    rewrite stub_find_head in Hf.
    destruct (Stub.brk h =? 0); injection Hf as Hh'; subst h'; reflexivity. }
  unfold Stub.read_string in Ht. rewrite Hstr, stub_find_head in Ht.
  now injection Ht as ->.
Qed.

Lemma stub_deterministic : deterministic Stub.platform.
Proof.
  intros name h1 h2 s1 s2 t1 t2 h1' h2' A1 A2.
  apply stub_accepts_known in A1. apply stub_accepts_known in A2.
  congruence.
Qed.

(** On the stub, from any heap: a run on a known name leaves the identifier
    blocks as they were and one string block more. *)
Lemma stub_ledger (g : locals) (input out : string) (tr : list event)
    (h : Stub.heap) name rest s :
  extract input = (name, rest) ->
  Stub.sid_of_name (c_str name) Stub.known = Some s ->
  Stub.brk h <> 0 ->
  main Stub.platform g (mkWorld input out h tr) =
    (Returned 0,
     mkWorld rest (out ++ prompt ++ label ++ s ++ nl)
       (Stub.mkHeap (Stub.sid_blocks h)
          ((Stub.brk h + 8, s) :: Stub.str_blocks h) (Stub.brk h + 8 + 8))
       (tr ++ script name (Stub.brk h) s)).
Proof.
  intros Hx Hk Hb.
  refine (main_returns Stub.platform g (mkWorld input out h tr)
            name rest S_OK (Some (Stub.brk h))
            (Stub.mkHeap ((Stub.brk h, s) :: Stub.sid_blocks h)
               (Stub.str_blocks h) (Stub.brk h + 8))
            1 (Some (Stub.brk h + 8))
            (Stub.mkHeap ((Stub.brk h, s) :: Stub.sid_blocks h)
               ((Stub.brk h + 8, s) :: Stub.str_blocks h) (Stub.brk h + 8 + 8))
            _ s Hx _ _ _ _);
    cbn [Stub.platform DeriveAppContainerSidFromAppContainerName
         ConvertSidToStringSidA FreeSid cstring_at w_host stored].
  - unfold Stub.derive. now rewrite Hk.
  - unfold Stub.convert. cbn [Stub.sid_blocks Stub.str_blocks Stub.brk].
    now rewrite stub_find_head.
  - unfold Stub.free_sid. cbn [Stub.sid_blocks Stub.str_blocks Stub.brk].
    apply Z.eqb_neq in Hb. rewrite Hb, stub_find_head.
    cbn [Stub.drop_block]. now rewrite Z.eqb_refl.
  - unfold Stub.read_string. cbn [Stub.str_blocks].
    now rewrite stub_find_head.
Qed.

Lemma stub_accepts_contoso :
  accepts Stub.platform contoso Stub.boot 65536 contoso_sid Stub.after_contoso.
Proof.
  stub_accepts S_OK Stub.holding_sid 1 65544 Stub.holding_both.
Qed.

Lemma stub_accepts_contoso_again :
  accepts Stub.platform contoso Stub.after_contoso 65552 contoso_sid
    (Stub.mkHeap []
       [(65560, contoso_sid); (65544, contoso_sid); (4096, "stale"); (4104, "bytes")]
       65568).
Proof.
  stub_accepts S_OK
    (Stub.mkHeap [(65552, contoso_sid)]
       [(65544, contoso_sid); (4096, "stale"); (4104, "bytes")] 65560)
    1 65560
    (Stub.mkHeap [(65552, contoso_sid)]
       [(65560, contoso_sid); (65544, contoso_sid); (4096, "stale"); (4104, "bytes")]
       65568).
Qed.

(** * The claims *)

(** C1, as claimed, fails.  The stub rejects the name [NoSuchApp]: the
    derivation returns E_INVALIDARG and stores nothing, the conversion of
    the null [sid] fails as well, and [main] prints the label and the old
    text [stringSid] happens to point at, and returns 0.  On the platform
    without memory the derivation of a known name succeeds, the conversion
    fails, and the run ends the same way.  Nothing names a failed step. *)
Lemma failure_exits_zero :
  (DeriveAppContainerSidFromAppContainerName Stub.platform "NoSuchApp" Stub.boot
     = Returned (E_INVALIDARG, None, Stub.boot)
   /\ derivation_failed E_INVALIDARG
   /\ main Stub.platform (Stub.junk 4096) (Stub.start "NoSuchApp") =
        (Returned 0,
         mkWorld "" (prompt ++ label ++ "stale" ++ nl) Stub.boot
           (script "NoSuchApp" 0 "stale"))
   /\ ~ reports_failure
          (fst (main Stub.platform (Stub.junk 4096) (Stub.start "NoSuchApp"))))
  /\
  (DeriveAppContainerSidFromAppContainerName Stub.exhausted contoso Stub.boot
     = Returned (S_OK, Some 65536, Stub.holding_sid)
   /\ ConvertSidToStringSidA Stub.exhausted 65536 Stub.holding_sid
      = Returned (0, None, Stub.holding_sid)
   /\ conversion_failed 0
   /\ main Stub.exhausted (Stub.junk 4096) (Stub.start contoso) =
        (Returned 0,
         mkWorld "" (prompt ++ label ++ "stale" ++ nl)
           (Stub.mkHeap [] (Stub.str_blocks Stub.boot) 65544)
           (script contoso 65536 "stale"))
   /\ ~ reports_failure
          (fst (main Stub.exhausted (Stub.junk 4096) (Stub.start contoso)))).
Proof.
  repeat split; try reflexivity;
    intros (code & E & Hne); vm_compute in E; congruence.
Qed.

(** C1, amended.  When the derivation or the conversion reports failure,
    the program does not report it: it does not look at either status, goes
    on through conversion, release and printing as on success, and, the
    calls returning, writes the label, the string found at the address in
    [stringSid] (the indeterminate first one when the conversion stored
    none) and a line terminator, and returns 0. *)
Theorem failure_goes_unreported {St} (P : Platform St) (g : locals)
    (w : world St) name rest hr o1 h1 b o2 h2 h3 text :
  extract (w_stdin w) = (name, rest) ->
  DeriveAppContainerSidFromAppContainerName P (c_str name) (w_host w)
    = Returned (hr, o1, h1) ->
  ConvertSidToStringSidA P (stored o1 (sid_0 g)) h1 = Returned (b, o2, h2) ->
  FreeSid P (stored o1 (sid_0 g)) h2 = Returned h3 ->
  cstring_at P (stored o2 (stringSid_0 g)) h3 = Returned text ->
  derivation_failed hr \/ conversion_failed b ->
  fst (main P g w) = Returned 0
  /\ ~ reports_failure (fst (main P g w))
  /\ w_stdout (snd (main P g w))
     = (w_stdout w ++ prompt ++ label ++ text ++ nl)%string
  /\ w_trace (snd (main P g w))
     = (w_trace w ++ script name (stored o1 (sid_0 g)) text)%list.
Proof.
  intros Hx Hd Hc Hf Hs _.
  rewrite (main_returns P g w _ _ _ _ _ _ _ _ _ _ Hx Hd Hc Hf Hs).
  cbn [fst snd w_stdout w_trace].
  repeat split. intros (code & E & Hne). congruence.
Qed.

Lemma failure_goes_unreported_witness :
  fst (main Stub.platform (Stub.junk 4104) (Stub.start "NoSuchApp")) = Returned 0
  /\ ~ reports_failure
         (fst (main Stub.platform (Stub.junk 4104) (Stub.start "NoSuchApp")))
  /\ w_stdout (snd (main Stub.platform (Stub.junk 4104) (Stub.start "NoSuchApp")))
     = ("" ++ prompt ++ label ++ "bytes" ++ nl)%string
  /\ w_trace (snd (main Stub.platform (Stub.junk 4104) (Stub.start "NoSuchApp")))
     = ([] ++ script "NoSuchApp" 0 "bytes")%list.
Proof.
  exact (failure_goes_unreported Stub.platform (Stub.junk 4104)
           (Stub.start "NoSuchApp") "NoSuchApp" EmptyString E_INVALIDARG None
           Stub.boot 0 None Stub.boot Stub.boot "bytes"
           eq_refl eq_refl eq_refl eq_refl eq_refl (or_introl eq_refl)).
Defined.

(** C2. Whatever the name and whatever the conversion reports, success or
    failure, the identifier the derivation stored in [sid] is released
    exactly once before [main] returns: the only release of the run is one
    [FreeSid] of that identifier, it comes after the conversion and before
    anything of the result is written, and the platform is left in the state
    of that one release. *)
Theorem sid_released_exactly_once {St} (P : Platform St) (g : locals)
    (w : world St) name rest hr sid h1 b o2 h2 h3 :
  extract (w_stdin w) = (name, rest) ->
  DeriveAppContainerSidFromAppContainerName P (c_str name) (w_host w)
    = Returned (hr, Some sid, h1) ->
  ConvertSidToStringSidA P sid h1 = Returned (b, o2, h2) ->
  FreeSid P sid h2 = Returned h3 ->
  exists evs outs,
    w_trace (snd (main P g w)) = (w_trace w ++ evs)%list
    /\ evs = ([EvPut prompt; EvGet name; EvDerive (c_str name); EvConvert sid;
               EvFreeSid sid] ++ outs)%list
    /\ forallb is_put outs = true
    /\ releases evs = [EvFreeSid sid]
    /\ count_occ Z.eq_dec (freed_sids evs) sid = 1%nat
    /\ w_host (snd (main P g w)) = h3.
Proof.
  intros Hx Hd Hc Hf.
  destruct (main_after_release P g w _ _ _ _ _ _ _ _ _ Hx Hd Hc Hf)
    as (Hh & outs & Ht & Hp).
  cbn [stored] in Ht.
  destruct (puts_release_nothing outs Hp) as (Hr & Hs).
  eexists; exists outs. split; [exact Ht|]. split; [reflexivity|].
  split; [exact Hp|]. split; [|split; [|exact Hh]].
  - unfold releases in *. rewrite filter_app, Hr. reflexivity.
  - unfold freed_sids in *. rewrite flat_map_app, Hs.
    cbn [flat_map app count_occ].
    destruct (Z.eq_dec sid sid); [reflexivity | congruence].
Qed.

(** On the stub, with the conversion succeeding and with it failing. *)
Lemma sid_released_exactly_once_witness :
  (exists evs outs,
     w_trace (snd (main Stub.platform (Stub.junk 4096) (Stub.start contoso)))
       = ([] ++ evs)%list
     /\ evs = ([EvPut prompt; EvGet contoso; EvDerive (c_str contoso);
                EvConvert 65536; EvFreeSid 65536] ++ outs)%list
     /\ forallb is_put outs = true
     /\ releases evs = [EvFreeSid 65536]
     /\ count_occ Z.eq_dec (freed_sids evs) 65536 = 1%nat
     /\ w_host (snd (main Stub.platform (Stub.junk 4096) (Stub.start contoso)))
        = Stub.after_contoso)
  /\
  (exists evs outs,
     w_trace (snd (main Stub.exhausted (Stub.junk 4096) (Stub.start contoso)))
       = ([] ++ evs)%list
     /\ evs = ([EvPut prompt; EvGet contoso; EvDerive (c_str contoso);
                EvConvert 65536; EvFreeSid 65536] ++ outs)%list
     /\ forallb is_put outs = true
     /\ releases evs = [EvFreeSid 65536]
     /\ count_occ Z.eq_dec (freed_sids evs) 65536 = 1%nat
     /\ w_host (snd (main Stub.exhausted (Stub.junk 4096) (Stub.start contoso)))
        = Stub.mkHeap [] (Stub.str_blocks Stub.boot) 65544).
Proof.
  split.
  - exact (sid_released_exactly_once Stub.platform (Stub.junk 4096)
             (Stub.start contoso) contoso EmptyString S_OK 65536
             Stub.holding_sid 1 (Some 65544) Stub.holding_both
             Stub.after_contoso eq_refl eq_refl eq_refl eq_refl).
  - exact (sid_released_exactly_once Stub.exhausted (Stub.junk 4096)
             (Stub.start contoso) contoso EmptyString S_OK 65536
             Stub.holding_sid 0 None Stub.holding_sid
             (Stub.mkHeap [] (Stub.str_blocks Stub.boot) 65544)
             eq_refl eq_refl eq_refl eq_refl).
Defined.


(** C4, as claimed, fails.  On an accepted name the stub's run leaves three
    line terminators on standard output, not one line: the prompt went to
    the same stream and ends in two of them.  And the program prints what the
    conversion gave as it is: on a platform whose conversion gives
    [not-a-sid] for an accepted name, the line reads [SID: not-a-sid]. *)
Lemma prompt_shares_the_output :
  (main Stub.platform (Stub.junk 4096) (Stub.start (contoso ++ nl)) =
     (Returned 0,
      mkWorld nl (prompt ++ label ++ contoso_sid ++ nl) Stub.after_contoso
        (script contoso 65536 contoso_sid))
   /\ accepts Stub.platform contoso Stub.boot 65536 contoso_sid
        Stub.after_contoso
   /\ count_lines (prompt ++ label ++ contoso_sid ++ nl) = 3%nat
   /\ is_one_line (prompt ++ label ++ contoso_sid ++ nl) = false)
  /\
  (accepts Stub.unprefixed contoso Stub.boot 65536 "not-a-sid"
     (Stub.mkHeap [] [(65544, "not-a-sid"); (4096, "stale"); (4104, "bytes")]
        65552)
   /\ main Stub.unprefixed (Stub.junk 4096) (Stub.start (contoso ++ nl)) =
        (Returned 0,
         mkWorld nl (prompt ++ label ++ "not-a-sid" ++ nl)
           (Stub.mkHeap [] [(65544, "not-a-sid"); (4096, "stale"); (4104, "bytes")]
              65552)
           (script contoso 65536 "not-a-sid"))
   /\ prefix sid_prefix "not-a-sid" = false).
Proof.
  split; (split; [|split; [|split]]); try reflexivity.
  - exact stub_accepts_contoso.
  - stub_accepts S_OK Stub.holding_sid 1 65544
      (Stub.mkHeap [(65536, contoso_sid)]
         [(65544, "not-a-sid"); (4096, "stale"); (4104, "bytes")] 65552).
Qed.

(** C4, amended.  For a container name the platform accepts, the program
    writes to standard output the prompt and then the label, the text the
    conversion gave, unchanged, and a line terminator.  When that text holds
    no line terminator this is one line after the two of the prompt, three
    line terminators in all, and of the lines written it is the only one
    that starts with the label.  The identifier on the line begins with
    [S-1-] when, and only when, the text the platform gave does. *)
Theorem result_line {St} (P : Platform St) (g : locals) (w : world St)
    name rest sid text h' :
  extract (w_stdin w) = (name, rest) ->
  accepts P (c_str name) (w_host w) sid text h' ->
  main P g w =
    (Returned 0,
     mkWorld rest (w_stdout w ++ prompt ++ label ++ text ++ nl) h'
       (w_trace w ++
          [EvPut prompt; EvGet name; EvDerive (c_str name); EvConvert sid;
           EvFreeSid sid] ++ [EvPut label; EvPut text; EvPut nl]))
  /\ count_lines (prompt ++ label ++ text ++ nl) = (3 + count_lines text)%nat
  /\ (no_newline text = true ->
      is_one_line (label ++ text ++ nl) = true
      /\ count_lines (prompt ++ label ++ text ++ nl) = 3%nat
      /\ filter (prefix label) (lines_of (prompt ++ label ++ text ++ nl))
         = [(label ++ text)%string])
  /\ prefix (label ++ sid_prefix) (label ++ text ++ nl)
     = prefix sid_prefix text.
Proof.
  intros Hx (hr & h1 & b & q & h2 & Hd & _ & Hc & _ & Hf & Hs).
  split; [|split; [|split]].
  - exact (main_returns P g w _ _ _ _ _ _ _ _ _ _ Hx Hd Hc Hf Hs).
  - rewrite !count_lines_append. change (count_lines prompt) with 2%nat.
    change (count_lines label) with 0%nat. change (count_lines nl) with 1%nat.
    cbn [Nat.add]. now rewrite Nat.add_1_r.
  - intros Hnl. split; [now apply result_is_one_line|].
    split; [|now apply one_labelled_line].
    rewrite !count_lines_append, (count_lines_no_newline text Hnl).
    reflexivity.
  - rewrite prefix_behind. now apply prefix_before_nl.
Qed.

Lemma result_line_witness :
  main Stub.platform (Stub.junk 4096) (Stub.start (contoso ++ nl)) =
    (Returned 0,
     mkWorld nl ("" ++ prompt ++ label ++ contoso_sid ++ nl) Stub.after_contoso
       ([] ++
          [EvPut prompt; EvGet contoso; EvDerive (c_str contoso);
           EvConvert 65536; EvFreeSid 65536]
          ++ [EvPut label; EvPut contoso_sid; EvPut nl]))
  /\ count_lines (prompt ++ label ++ contoso_sid ++ nl)
     = (3 + count_lines contoso_sid)%nat
  /\ (no_newline contoso_sid = true ->
      is_one_line (label ++ contoso_sid ++ nl) = true
      /\ count_lines (prompt ++ label ++ contoso_sid ++ nl) = 3%nat
      /\ filter (prefix label) (lines_of (prompt ++ label ++ contoso_sid ++ nl))
         = [(label ++ contoso_sid)%string])
  /\ prefix (label ++ sid_prefix) (label ++ contoso_sid ++ nl)
     = prefix sid_prefix contoso_sid.
Proof.
  exact (result_line Stub.platform (Stub.junk 4096)
           (Stub.start (contoso ++ nl)) contoso nl 65536 contoso_sid
           Stub.after_contoso eq_refl stub_accepts_contoso).
Defined.

(** C5, as claimed, fails.  The stub answers by its table alone, yet two
    runs on the rejected name [NoSuchApp] print different text: no call
    stores into [stringSid], and the line shows whatever lies at the address
    the variable happened to hold, here 4096 in one run and 4104 in the
    other.  And on an accepted name the line is the platform's to decide: on
    a platform whose conversion depends on what its heap has been through,
    a first run on [contoso] and a second one after it print different
    identifiers. *)
Lemma rejected_name_prints_leftovers :
  (deterministic Stub.platform
   /\ fst (extract "NoSuchApp") = "NoSuchApp"
   /\ DeriveAppContainerSidFromAppContainerName Stub.platform "NoSuchApp" Stub.boot
      = Returned (E_INVALIDARG, None, Stub.boot)
   /\ main Stub.platform (Stub.junk 4096) (Stub.start "NoSuchApp") =
        (Returned 0,
         mkWorld "" (prompt ++ label ++ "stale" ++ nl) Stub.boot
           (script "NoSuchApp" 0 "stale"))
   /\ main Stub.platform (Stub.junk 4104) (Stub.start "NoSuchApp") =
        (Returned 0,
         mkWorld "" (prompt ++ label ++ "bytes" ++ nl) Stub.boot
           (script "NoSuchApp" 0 "bytes"))
   /\ w_stdout (snd (main Stub.platform (Stub.junk 4096) (Stub.start "NoSuchApp")))
      <> w_stdout (snd (main Stub.platform (Stub.junk 4104) (Stub.start "NoSuchApp"))))
  /\
  (main Stub.drifting (Stub.junk 4096) (Stub.start contoso) =
     (Returned 0,
      mkWorld "" (prompt ++ label ++ contoso_sid ++ nl) Stub.after_contoso
        (script contoso 65536 contoso_sid))
   /\ main Stub.drifting (Stub.junk 4096)
        (mkWorld contoso "" Stub.after_contoso []) =
        (Returned 0,
         mkWorld "" (prompt ++ label ++ (contoso_sid ++ "-0") ++ nl)
           (Stub.mkHeap []
              [(65560, (contoso_sid ++ "-0")%string); (65544, contoso_sid);
               (4096, "stale"); (4104, "bytes")] 65568)
           (script contoso 65552 (contoso_sid ++ "-0")))
   /\ contoso_sid <> (contoso_sid ++ "-0")%string).
Proof.
  split; [split; [exact stub_deterministic|] |]; by_running.
Qed.

(** C5, amended.  For a container name the platform accepts, a run prints
    the text the platform's conversion gave in that run and nothing of its
    own that could vary: not what the uninitialised locals hold, not what
    surrounds the name on the input, not what was written before.  So two
    runs on the same name print the same identifier when, and only when,
    the platform gave the same text in both; it does whenever its mapping
    from name to text is the same in every state. *)
Theorem same_name_same_text {St} (P : Platform St) (g1 g2 : locals)
    (w1 w2 : world St) name sid1 sid2 text1 text2 h1 h2 :
  fst (extract (w_stdin w1)) = name ->
  fst (extract (w_stdin w2)) = name ->
  accepts P (c_str name) (w_host w1) sid1 text1 h1 ->
  accepts P (c_str name) (w_host w2) sid2 text2 h2 ->
  fst (main P g1 w1) = Returned 0
  /\ fst (main P g2 w2) = Returned 0
  /\ w_stdout (snd (main P g1 w1))
     = (w_stdout w1 ++ prompt ++ label ++ text1 ++ nl)%string
  /\ w_stdout (snd (main P g2 w2))
     = (w_stdout w2 ++ prompt ++ label ++ text2 ++ nl)%string
  /\ ((prompt ++ label ++ text1 ++ nl)%string
      = (prompt ++ label ++ text2 ++ nl)%string <-> text1 = text2)
  /\ (deterministic P -> text1 = text2).
Proof.
  intros Hn1 Hn2 A1 A2.
  assert (Hdet : deterministic P -> text1 = text2).
  { intros Hdet. exact (Hdet _ _ _ _ _ _ _ _ _ A1 A2). }
  destruct A1 as (hr1 & k1 & b1 & q1 & m1 & Hd1 & _ & Hc1 & _ & Hf1 & Hs1).
  destruct A2 as (hr2 & k2 & b2 & q2 & m2 & Hd2 & _ & Hc2 & _ & Hf2 & Hs2).
  destruct (extract (w_stdin w1)) as [n1 r1] eqn:Hx1.
  destruct (extract (w_stdin w2)) as [n2 r2] eqn:Hx2.
  cbn [fst] in Hn1, Hn2. subst n1 n2.
  rewrite (main_returns P g1 w1 _ _ _ _ _ _ _ _ _ _ Hx1 Hd1 Hc1 Hf1 Hs1).
  rewrite (main_returns P g2 w2 _ _ _ _ _ _ _ _ _ _ Hx2 Hd2 Hc2 Hf2 Hs2).
  cbn [fst snd w_stdout].
  split; [reflexivity|]. split; [reflexivity|].
  split; [reflexivity|]. split; [reflexivity|].
  split; [|exact Hdet].
  split; [|now intros ->].
  intros H. apply append_same_head in H. apply append_same_head in H.
  now apply append_same_nl.
Qed.

(** A first run from start-up, and a later one in the world it left, with
    other contents in the locals and other input around the name. *)
Lemma same_name_same_text_witness :
  fst (main Stub.platform (Stub.junk 4096) (Stub.start contoso)) = Returned 0
  /\ fst (main Stub.platform (mkLocals 7 9) Stub.second_start) = Returned 0
  /\ w_stdout (snd (main Stub.platform (Stub.junk 4096) (Stub.start contoso)))
     = ("" ++ prompt ++ label ++ contoso_sid ++ nl)%string
  /\ w_stdout (snd (main Stub.platform (mkLocals 7 9) Stub.second_start))
     = ("earlier output" ++ prompt ++ label ++ contoso_sid ++ nl)%string
  /\ ((prompt ++ label ++ contoso_sid ++ nl)%string
      = (prompt ++ label ++ contoso_sid ++ nl)%string
      <-> contoso_sid = contoso_sid)
  /\ (deterministic Stub.platform -> contoso_sid = contoso_sid).
Proof.
  exact (same_name_same_text Stub.platform (Stub.junk 4096) (mkLocals 7 9)
           (Stub.start contoso) Stub.second_start contoso 65536 65552
           contoso_sid contoso_sid _ _
           eq_refl eq_refl
           stub_accepts_contoso stub_accepts_contoso_again).
Defined.

(** C6, as claimed, fails.  With nothing on the input the name is the empty
    string; the stub rejects it with E_INVALIDARG, and [main] still converts,
    releases, prints a line and returns 0. *)
Lemma empty_name_not_refused :
  extract "" = ("", "")
  /\ DeriveAppContainerSidFromAppContainerName Stub.platform "" Stub.boot
     = Returned (E_INVALIDARG, None, Stub.boot)
  /\ derivation_failed E_INVALIDARG
  /\ main Stub.platform (Stub.junk 4096) (Stub.start "") =
       (Returned 0,
        mkWorld "" (prompt ++ label ++ "stale" ++ nl) Stub.boot
          (script "" 0 "stale"))
  /\ ~ reports_failure
         (fst (main Stub.platform (Stub.junk 4096) (Stub.start ""))).
Proof.
  repeat split; try reflexivity;
    intros (code & E & Hne); vm_compute in E; congruence.
Qed.

(** C6, amended.  When the input holds nothing but white space the name
    handed to the derivation is the empty string, and when the platform
    rejects it the program does not fail: it goes on to convert whatever
    [sid] holds, releases it, prints the label, the string found at the
    address in [stringSid] and a line terminator, and returns 0, the calls
    returning. *)
Theorem empty_name_goes_on {St} (P : Platform St) (g : locals)
    (w : world St) hr o1 h1 b o2 h2 h3 text :
  all_chars iswspace (w_stdin w) = true ->
  DeriveAppContainerSidFromAppContainerName P EmptyString (w_host w)
    = Returned (hr, o1, h1) ->
  derivation_failed hr ->
  ConvertSidToStringSidA P (stored o1 (sid_0 g)) h1 = Returned (b, o2, h2) ->
  FreeSid P (stored o1 (sid_0 g)) h2 = Returned h3 ->
  cstring_at P (stored o2 (stringSid_0 g)) h3 = Returned text ->
  main P g w =
    (Returned 0,
     mkWorld EmptyString (w_stdout w ++ prompt ++ label ++ text ++ nl) h3
       (w_trace w ++
          [EvPut prompt; EvGet EmptyString; EvDerive EmptyString;
           EvConvert (stored o1 (sid_0 g)); EvFreeSid (stored o1 (sid_0 g));
           EvPut label; EvPut text; EvPut nl])).
Proof.
  intros Hblank Hd _ Hc Hf Hs.
  exact (main_returns P g w _ _ _ _ _ _ _ _ _ _
           (extract_blank _ Hblank) Hd Hc Hf Hs).
Qed.

Lemma empty_name_goes_on_witness :
  main Stub.platform (Stub.junk 4104) (Stub.start ("  " ++ nl)) =
    (Returned 0,
     mkWorld EmptyString ("" ++ prompt ++ label ++ "bytes" ++ nl) Stub.boot
       ([] ++
          [EvPut prompt; EvGet EmptyString; EvDerive EmptyString;
           EvConvert 0; EvFreeSid 0; EvPut label; EvPut "bytes"; EvPut nl])).
Proof.
  exact (empty_name_goes_on Stub.platform (Stub.junk 4104)
           (Stub.start ("  " ++ nl)) E_INVALIDARG None Stub.boot 0 None
           Stub.boot Stub.boot "bytes"
           eq_refl eq_refl eq_refl eq_refl eq_refl eq_refl).
Defined.

(** C7, as claimed, fails: with [Contoso Demo] on the input line the name
    handed to the derivation is [Contoso], not the line; [ Demo] and the line
    end stay in the stream. *)
Lemma name_is_not_the_line :
  getline ("Contoso Demo" ++ nl) = "Contoso Demo"
  /\ extract ("Contoso Demo" ++ nl) = ("Contoso", " Demo" ++ nl)
  /\ main Stub.platform (Stub.junk 4096) (Stub.start ("Contoso Demo" ++ nl)) =
       (Returned 0,
        mkWorld (" Demo" ++ nl) (prompt ++ label ++ "stale" ++ nl) Stub.boot
          [EvPut prompt; EvGet "Contoso"; EvDerive "Contoso"; EvConvert 0;
           EvFreeSid 0; EvPut label; EvPut "stale"; EvPut nl])
  /\ fst (extract ("Contoso Demo" ++ nl)) <> getline ("Contoso Demo" ++ nl).
Proof. by_running. Qed.

(** C7, amended. In every run the program first writes the prompt and then
    reads one word: leading white space is skipped, the name is the run of
    characters up to the next white-space character or the end of the input
    and so holds no white space, and what follows the name stays unread.
    That word, as a null-terminated string, is the name handed to the
    derivation; it is empty only when the input holds nothing but white
    space. *)
Theorem prompt_then_one_word {St} (P : Platform St) (g : locals)
    (w : world St) :
  exists blanks evs,
    w_trace (snd (main P g w)) =
      (w_trace w ++
         EvPut prompt :: EvGet (fst (extract (w_stdin w)))
           :: EvDerive (c_str (fst (extract (w_stdin w)))) :: evs)%list
    /\ w_stdin w =
         (blanks ++ fst (extract (w_stdin w)) ++ snd (extract (w_stdin w)))%string
    /\ all_chars iswspace blanks = true
    /\ all_chars (fun c => negb (iswspace c)) (fst (extract (w_stdin w))) = true
    /\ (snd (extract (w_stdin w)) = EmptyString
        \/ exists c r, snd (extract (w_stdin w)) = String c r
                       /\ iswspace c = true)
    /\ (fst (extract (w_stdin w)) = EmptyString ->
        snd (extract (w_stdin w)) = EmptyString)
    /\ (all_chars (fun c => negb (is_nul c)) (fst (extract (w_stdin w))) = true ->
        c_str (fst (extract (w_stdin w))) = fst (extract (w_stdin w)))
    /\ w_stdin (snd (main P g w)) = snd (extract (w_stdin w)).
Proof.
  destruct (skip_ws_split (w_stdin w)) as (blanks & Hsplit & Hblank).
  destruct (main_shape P g w) as (evs & Ht & Hs).
  exists blanks.
  assert (Hev : exists tail,
             evs = EvPut prompt :: EvGet (fst (extract (w_stdin w)))
                     :: EvDerive (c_str (fst (extract (w_stdin w)))) :: tail).
  { destruct Hs; unfold script; eauto. }
  destruct Hev as (tail & ->). exists tail.
  split; [exact Ht|].
  split; [unfold extract; now rewrite <- take_word_split|].
  split; [exact Hblank|].
  split; [apply take_word_no_space|].
  split; [apply take_word_rest|].
  split; [|split; [apply c_str_no_nul | apply main_stdin]].
  intros Hempty. apply extract_empty_name in Hempty.
  now rewrite (extract_blank _ Hempty).
Qed.




(** C9. A run that reaches the end of [main] exits with status 0, whatever
    the derivation and the conversion reported: [main] never looks at either
    status, so rewriting the two values the platform reports changes nothing
    of the run; and the run does reach the end whenever the calls return. *)
Theorem exit_status_zero {St} (P : Platform St) (g : locals) (w : world St) :
  (forall code, fst (main P g w) = Returned code -> code = 0)
  /\ (forall (f : HRESULT -> HRESULT) (k : BOOL -> BOOL),
        main (with_status f k P) g w = main P g w)
  /\ (forall hr o1 h1 b o2 h2 h3 text,
        DeriveAppContainerSidFromAppContainerName P
          (c_str (fst (extract (w_stdin w)))) (w_host w)
          = Returned (hr, o1, h1) ->
        ConvertSidToStringSidA P (stored o1 (sid_0 g)) h1
          = Returned (b, o2, h2) ->
        FreeSid P (stored o1 (sid_0 g)) h2 = Returned h3 ->
        cstring_at P (stored o2 (stringSid_0 g)) h3 = Returned text ->
        fst (main P g w) = Returned 0).
Proof.
  split; [|split].
  - destruct (main_shape P g w) as (evs & _ & Hs).
    exact (run_shape_status _ _ _ Hs).
  - intros f k. apply main_ignores_status.
  - intros hr o1 h1 b o2 h2 h3 text Hd Hc Hf Hs.
    destruct (extract (w_stdin w)) as [name rest] eqn:Hx.
    now rewrite (main_returns P g w _ _ _ _ _ _ _ _ _ _ Hx Hd Hc Hf Hs).
Qed.


(** * Further properties of [main] *)

(** ** More on the extraction and on [c_str] *)

Lemma skip_ws_blanks (blanks s : string) :
  all_chars iswspace blanks = true -> skip_ws (blanks ++ s) = skip_ws s.
Proof.
  induction blanks as [|c r IH]; simpl; [reflexivity|].
  destruct (iswspace c); simpl; [exact IH | discriminate].
Qed.

Lemma take_word_word (name tail : string) :
  all_chars (fun c => negb (iswspace c)) name = true ->
  tail = EmptyString
  \/ (exists c r, tail = String c r /\ iswspace c = true) ->
  take_word (name ++ tail) = (name, tail).
Proof.
  intros Hn Ht. induction name as [|c r IH]; simpl in *.
  - destruct Ht as [-> | (c & r & -> & Hc)]; simpl; [reflexivity|].
    now rewrite Hc.
  - apply andb_prop in Hn as [Hc Hr].
    destruct (iswspace c); [discriminate|].
    now rewrite (IH Hr).
Qed.

Lemma skip_ws_word (name tail : string) :
  name <> EmptyString ->
  all_chars (fun c => negb (iswspace c)) name = true ->
  skip_ws (name ++ tail) = (name ++ tail)%string.
Proof.
  destruct name as [|c r]; [congruence|]. simpl. intros _ H.
  apply andb_prop in H as [Hc _].
  now destruct (iswspace c).
Qed.

Lemma c_str_keeps (f : ascii -> bool) (s : string) :
  all_chars f s = true -> all_chars f (c_str s) = true.
Proof.
  induction s as [|c r IH]; simpl; [reflexivity|].
  intros H. apply andb_prop in H as [Hc Hr].
  destruct (is_nul c); simpl; [reflexivity|].
  now rewrite Hc, IH.
Qed.

Lemma c_str_has_no_nul (s : string) :
  all_chars (fun c => negb (is_nul c)) (c_str s) = true.
Proof.
  induction s as [|c r IH]; simpl; [reflexivity|].
  destruct (is_nul c) eqn:E; simpl; [reflexivity|].
  now rewrite E, IH.
Qed.

Lemma c_str_split (s : string) :
  exists tail,
    s = (c_str s ++ tail)%string
    /\ (tail = EmptyString
        \/ exists c r, tail = String c r /\ is_nul c = true).
Proof.
  induction s as [|c r (tail & E & H)]; simpl.
  - exists EmptyString. split; [reflexivity | now left].
  - destruct (is_nul c) eqn:N.
    + exists (String c r). split; [reflexivity | right; eauto].
    + exists tail. split; [simpl; now rewrite <- E | exact H].
Qed.

(** X1. A run depends on the input only through its first word: two inputs
    with the same first word, whatever blanks lead and whatever follows,
    give the same exit or crash, the same output, the same calls in the same
    order and the same platform state.  Only the unread rest differs. *)
Theorem only_the_first_word_counts {St} (P : Platform St) (g : locals)
    (w : world St) (other : string) :
  fst (extract other) = fst (extract (w_stdin w)) ->
  fst (main P g (mkWorld other (w_stdout w) (w_host w) (w_trace w)))
    = fst (main P g w)
  /\ w_stdout (snd (main P g (mkWorld other (w_stdout w) (w_host w) (w_trace w))))
     = w_stdout (snd (main P g w))
  /\ w_host (snd (main P g (mkWorld other (w_stdout w) (w_host w) (w_trace w))))
     = w_host (snd (main P g w))
  /\ w_trace (snd (main P g (mkWorld other (w_stdout w) (w_host w) (w_trace w))))
     = w_trace (snd (main P g w))
  /\ w_stdin (snd (main P g (mkWorld other (w_stdout w) (w_host w) (w_trace w))))
     = snd (extract other).
Proof.
  intros Hname.
  split; [|split; [|split; [|split; [|apply main_stdin]]]];
    run_main;
    destruct (extract other) as [n1 r1];
    destruct (extract (w_stdin w)) as [n2 r2];
    cbn [fst] in Hname; subst n2;
    cbn [w_stdin w_stdout w_host w_trace fst snd];
    (destruct (DeriveAppContainerSidFromAppContainerName P (c_str n1) (w_host w))
       as [[[hr o1] h1]|];
     cbn [w_stdin w_stdout w_host w_trace fst snd]; [|reflexivity]);
    (destruct (ConvertSidToStringSidA P (stored o1 (sid_0 g)) h1)
       as [[[b o2] h2]|];
     cbn [w_stdin w_stdout w_host w_trace fst snd]; [|reflexivity]);
    (destruct (FreeSid P (stored o1 (sid_0 g)) h2) as [h3|];
     cbn [w_stdin w_stdout w_host w_trace fst snd]; [|reflexivity]);
    destruct (cstring_at P (stored o2 (stringSid_0 g)) h3) as [text|];
    reflexivity.
Qed.

Lemma only_the_first_word_counts_witness :
  fst (main Stub.platform (Stub.junk 4096)
         (mkWorld ("  " ++ contoso ++ " and more") "" Stub.boot []))
    = fst (main Stub.platform (Stub.junk 4096) (Stub.start (contoso ++ nl)))
  /\ w_stdout (snd (main Stub.platform (Stub.junk 4096)
                      (mkWorld ("  " ++ contoso ++ " and more") "" Stub.boot [])))
     = w_stdout (snd (main Stub.platform (Stub.junk 4096)
                        (Stub.start (contoso ++ nl))))
  /\ w_host (snd (main Stub.platform (Stub.junk 4096)
                    (mkWorld ("  " ++ contoso ++ " and more") "" Stub.boot [])))
     = w_host (snd (main Stub.platform (Stub.junk 4096)
                      (Stub.start (contoso ++ nl))))
  /\ w_trace (snd (main Stub.platform (Stub.junk 4096)
                     (mkWorld ("  " ++ contoso ++ " and more") "" Stub.boot [])))
     = w_trace (snd (main Stub.platform (Stub.junk 4096)
                       (Stub.start (contoso ++ nl))))
  /\ w_stdin (snd (main Stub.platform (Stub.junk 4096)
                     (mkWorld ("  " ++ contoso ++ " and more") "" Stub.boot [])))
     = snd (extract ("  " ++ contoso ++ " and more")).
Proof.
  exact (only_the_first_word_counts Stub.platform (Stub.junk 4096)
           (Stub.start (contoso ++ nl)) ("  " ++ contoso ++ " and more")
           eq_refl).
Defined.

(** X2. A name typed without white space and without a null character is
    read in full and handed to the derivation as typed: blanks before it are
    skipped, and the white-space character that ends it (the line end, say),
    with all that follows, stays unread. *)
Theorem typed_name_is_read_in_full {St} (P : Platform St) (g : locals)
    (w : world St) (blanks name tail : string) :
  w_stdin w = (blanks ++ name ++ tail)%string ->
  all_chars iswspace blanks = true ->
  name <> EmptyString ->
  all_chars (fun c => negb (iswspace c)) name = true ->
  all_chars (fun c => negb (is_nul c)) name = true ->
  tail = EmptyString
  \/ (exists c r, tail = String c r /\ iswspace c = true) ->
  extract (w_stdin w) = (name, tail)
  /\ w_stdin (snd (main P g w)) = tail
  /\ exists evs,
       w_trace (snd (main P g w)) =
         (w_trace w ++ EvPut prompt :: EvGet name :: EvDerive name :: evs)%list.
Proof.
  intros Hin Hb Hne Hws Hnul Htail.
  assert (Hx : extract (w_stdin w) = (name, tail)).
  { unfold extract. rewrite Hin, (skip_ws_blanks _ _ Hb).
    rewrite (skip_ws_word _ _ Hne Hws). now apply take_word_word. }
  split; [exact Hx|]. split.
  - now rewrite main_stdin, Hx.
  - destruct (main_shape P g w) as (evs & Ht & Hs).
    rewrite Hx in Hs. cbn [fst] in Hs.
    rewrite Ht. destruct Hs; unfold script;
      rewrite (c_str_no_nul _ Hnul); eauto.
Qed.

Lemma typed_name_is_read_in_full_witness :
  extract (w_stdin (Stub.start (" " ++ contoso ++ nl ++ "next")))
    = (contoso, (nl ++ "next")%string)
  /\ w_stdin (snd (main Stub.platform (Stub.junk 4096)
                     (Stub.start (" " ++ contoso ++ nl ++ "next"))))
     = (nl ++ "next")%string
  /\ exists evs,
       w_trace (snd (main Stub.platform (Stub.junk 4096)
                       (Stub.start (" " ++ contoso ++ nl ++ "next")))) =
         (w_trace (Stub.start (" " ++ contoso ++ nl ++ "next"))
            ++ EvPut prompt :: EvGet contoso :: EvDerive contoso :: evs)%list.
Proof.
  refine (typed_name_is_read_in_full Stub.platform (Stub.junk 4096)
            (Stub.start (" " ++ contoso ++ nl ++ "next"))
            " " contoso (nl ++ "next") eq_refl eq_refl _ eq_refl eq_refl _).
  - discriminate.
  - right. exists (ascii_of_nat 10), "next". split; reflexivity.
Defined.

(** X3. In every run the name the derivation receives is the word read cut
    at its first null character: it holds no white space and no null
    character, and the word is that name followed by nothing or by a null
    character and more. *)
Theorem name_handed_over_is_clean {St} (P : Platform St) (g : locals)
    (w : world St) :
  exists handed cut evs,
    w_trace (snd (main P g w)) =
      (w_trace w ++ EvPut prompt :: EvGet (fst (extract (w_stdin w)))
                 :: EvDerive handed :: evs)%list
    /\ handed = c_str (fst (extract (w_stdin w)))
    /\ fst (extract (w_stdin w)) = (handed ++ cut)%string
    /\ (cut = EmptyString
        \/ exists c r, cut = String c r /\ is_nul c = true)
    /\ all_chars (fun c => negb (iswspace c)) handed = true
    /\ all_chars (fun c => negb (is_nul c)) handed = true.
Proof.
  destruct (c_str_split (fst (extract (w_stdin w)))) as (cut & Hsplit & Hcut).
  destruct (main_shape P g w) as (evs & Ht & Hs).
  exists (c_str (fst (extract (w_stdin w)))), cut.
  assert (Hev : exists rest,
             evs = EvPut prompt :: EvGet (fst (extract (w_stdin w)))
                     :: EvDerive (c_str (fst (extract (w_stdin w)))) :: rest).
  { destruct Hs; unfold script; eauto. }
  destruct Hev as (rest & ->). exists rest.
  split; [exact Ht|]. split; [reflexivity|]. split; [exact Hsplit|].
  split; [exact Hcut|]. split; [|apply c_str_has_no_nul].
  apply c_str_keeps. unfold extract. apply take_word_no_space.
Qed.

(** X4. When the derivation stores nothing in [sid], the program still
    passes the variable on: the conversion and then [FreeSid] are called on
    the indeterminate value [sid] had from the start. *)
Theorem unstored_sid_is_converted_and_freed {St} (P : Platform St)
    (g : locals) (w : world St) name rest hr h1 b o2 h2 :
  extract (w_stdin w) = (name, rest) ->
  DeriveAppContainerSidFromAppContainerName P (c_str name) (w_host w)
    = Returned (hr, None, h1) ->
  ConvertSidToStringSidA P (sid_0 g) h1 = Returned (b, o2, h2) ->
  exists outs,
    w_trace (snd (main P g w)) =
      (w_trace w ++
         [EvPut prompt; EvGet name; EvDerive (c_str name);
          EvConvert (sid_0 g); EvFreeSid (sid_0 g)] ++ outs)%list
    /\ forallb is_put outs = true
    /\ freed_sids
         ([EvPut prompt; EvGet name; EvDerive (c_str name);
           EvConvert (sid_0 g); EvFreeSid (sid_0 g)] ++ outs)
       = [sid_0 g].
Proof.
  intros Hx Hd Hc.
  assert (H : exists outs,
             w_trace (snd (main P g w)) =
               (w_trace w ++
                  [EvPut prompt; EvGet name; EvDerive (c_str name);
                   EvConvert (sid_0 g); EvFreeSid (sid_0 g)] ++ outs)%list
             /\ forallb is_put outs = true).
  { run_main.
    rewrite Hx. cbn [w_stdin w_stdout w_host w_trace].
    rewrite Hd. cbn [w_stdin w_stdout w_host w_trace stored].
    rewrite Hc. cbn [w_stdin w_stdout w_host w_trace stored].
    destruct (FreeSid P (sid_0 g) h2) as [h3|];
      cbn [w_stdin w_stdout w_host w_trace snd].
    - destruct (cstring_at P (stored o2 (stringSid_0 g)) h3) as [text|];
        cbn [w_stdin w_stdout w_host w_trace snd].
      + exists [EvPut label; EvPut text; EvPut nl].
        split; [flatten_trace|]; reflexivity.
      + exists [EvPut label]. split; [flatten_trace|]; reflexivity.
    - exists []. split; [flatten_trace|]; reflexivity. }
  destruct H as (outs & Ht & Hp). exists outs.
  split; [exact Ht|]. split; [exact Hp|].
  destruct (puts_release_nothing outs Hp) as (_ & Hs).
  unfold freed_sids in *. rewrite flat_map_app, Hs. reflexivity.
Qed.

(** On the stub with 5 left in [sid]: the conversion of 5 fails, and the
    release of 5, which is no block of the heap, ends the process. *)
Lemma unstored_sid_is_converted_and_freed_witness :
  (exists outs,
     w_trace (snd (main Stub.platform (mkLocals 5 4096) (Stub.start "NoSuchApp"))) =
       (w_trace (Stub.start "NoSuchApp") ++
          [EvPut prompt; EvGet "NoSuchApp"; EvDerive (c_str "NoSuchApp");
           EvConvert (sid_0 (mkLocals 5 4096));
           EvFreeSid (sid_0 (mkLocals 5 4096))] ++ outs)%list
     /\ forallb is_put outs = true
     /\ freed_sids
          ([EvPut prompt; EvGet "NoSuchApp"; EvDerive (c_str "NoSuchApp");
            EvConvert (sid_0 (mkLocals 5 4096));
            EvFreeSid (sid_0 (mkLocals 5 4096))] ++ outs)
        = [sid_0 (mkLocals 5 4096)])
  /\ main Stub.platform (mkLocals 5 4096) (Stub.start "NoSuchApp") =
       (Crashed,
        mkWorld "" prompt Stub.boot
          [EvPut prompt; EvGet "NoSuchApp"; EvDerive "NoSuchApp";
           EvConvert 5; EvFreeSid 5]).
Proof.
  split.
  - exact (unstored_sid_is_converted_and_freed Stub.platform (mkLocals 5 4096)
             (Stub.start "NoSuchApp") "NoSuchApp" EmptyString E_INVALIDARG
             Stub.boot 0 None Stub.boot eq_refl eq_refl eq_refl).
  - reflexivity.
Defined.

(** X6. The indeterminate contents of [sid] and [stringSid] have a part in
    the run only when a call stores nothing: when the derivation, if it
    returns, stores an identifier, and the conversion of that identifier, if
    it returns, stores a string, the whole run is the same whatever the two
    locals held. *)
Theorem locals_count_only_when_nothing_is_stored {St} (P : Platform St)
    (g1 g2 : locals) (w : world St) :
  (forall hr h1,
     DeriveAppContainerSidFromAppContainerName P
       (c_str (fst (extract (w_stdin w)))) (w_host w)
     <> Returned (hr, None, h1)) ->
  (forall hr sid h1 b h2,
     DeriveAppContainerSidFromAppContainerName P
       (c_str (fst (extract (w_stdin w)))) (w_host w)
     = Returned (hr, Some sid, h1) ->
     ConvertSidToStringSidA P sid h1 <> Returned (b, None, h2)) ->
  main P g1 w = main P g2 w.
Proof.
  intros Hd Hc. run_main.
  destruct (extract (w_stdin w)) as [name rest].
  cbn [w_stdin w_stdout w_host w_trace fst snd] in *.
  destruct (DeriveAppContainerSidFromAppContainerName P (c_str name) (w_host w))
    as [[[hr [sid|]] h1]|] eqn:Ed;
    cbn [w_stdin w_stdout w_host w_trace stored];
    [|exfalso; exact (Hd hr h1 eq_refl)|reflexivity].
  specialize (Hc hr sid h1).
  destruct (ConvertSidToStringSidA P sid h1) as [[[b [q|]] h2]|];
    cbn [w_stdin w_stdout w_host w_trace stored];
    [reflexivity|exfalso; exact (Hc b h2 eq_refl eq_refl)|reflexivity].
Qed.

Lemma stub_stores_sid_of_contoso hr h1 :
  DeriveAppContainerSidFromAppContainerName Stub.platform
    (c_str (fst (extract (w_stdin (Stub.start contoso)))))
    (w_host (Stub.start contoso))
  <> Returned (hr, None, h1).
Proof. discriminate. Qed.

Lemma stub_stores_text_of_contoso hr sid h1 b h2 :
  DeriveAppContainerSidFromAppContainerName Stub.platform
    (c_str (fst (extract (w_stdin (Stub.start contoso)))))
    (w_host (Stub.start contoso))
  = Returned (hr, Some sid, h1) ->
  ConvertSidToStringSidA Stub.platform sid h1 <> Returned (b, None, h2).
Proof.
  intros H. vm_compute in H. injection H as _ <- <-. discriminate.
Qed.

Lemma locals_count_only_when_nothing_is_stored_witness :
  main Stub.platform (Stub.junk 4096) (Stub.start contoso)
  = main Stub.platform (mkLocals 7 9) (Stub.start contoso).
Proof.
  exact (locals_count_only_when_nothing_is_stored Stub.platform
           (Stub.junk 4096) (mkLocals 7 9) (Stub.start contoso)
           stub_stores_sid_of_contoso stub_stores_text_of_contoso).
Defined.

(** X8. When the process dies inside the conversion, the identifier the
    derivation stored is not released: no [FreeSid] has been called, nothing
    but the prompt has been written, and the platform is left as the
    derivation left it. *)
Theorem death_in_conversion_skips_release {St} (P : Platform St)
    (g : locals) (w : world St) name rest hr sid h1 :
  extract (w_stdin w) = (name, rest) ->
  DeriveAppContainerSidFromAppContainerName P (c_str name) (w_host w)
    = Returned (hr, Some sid, h1) ->
  ConvertSidToStringSidA P sid h1 = Crashed ->
  main P g w =
    (Crashed,
     mkWorld rest (w_stdout w ++ prompt) h1
       (w_trace w ++
          [EvPut prompt; EvGet name; EvDerive (c_str name); EvConvert sid]))
  /\ freed_sids
       [EvPut prompt; EvGet name; EvDerive (c_str name); EvConvert sid] = [].
Proof.
  intros Hx Hd Hc. split; [|reflexivity].
  run_main.
  rewrite Hx. cbn [w_stdin w_stdout w_host w_trace].
  rewrite Hd. cbn [w_stdin w_stdout w_host w_trace stored].
  rewrite Hc. flatten_trace. reflexivity.
Qed.

Lemma death_in_conversion_skips_release_witness :
  main Stub.faulty (Stub.junk 4096) (Stub.start contoso) =
    (Crashed,
     mkWorld "" ("" ++ prompt) Stub.holding_sid
       ([] ++
          [EvPut prompt; EvGet contoso; EvDerive (c_str contoso);
           EvConvert 65536]))
  /\ freed_sids
       [EvPut prompt; EvGet contoso; EvDerive (c_str contoso); EvConvert 65536]
     = [].
Proof.
  exact (death_in_conversion_skips_release Stub.faulty (Stub.junk 4096)
           (Stub.start contoso) contoso EmptyString S_OK 65536
           Stub.holding_sid eq_refl eq_refl eq_refl).
Defined.
